(** * Strands Agent Team: the text gateway and the voice gateway

    A shallow embedding of the request handlers of [app.py] (the text
    gateway) and [voice_agent.py] (the voice gateway), and the properties of
    their request/response contracts.

    The handlers are straight-line Python: they log, call one external
    collaborator (the coordinator agent, or an HTTP endpoint through
    [httpx]), reshape the answer and translate exceptions into
    [HTTPException]s with [try]/[except].  They are embedded in a small
    monad [M] that records what a handler does (its log lines, the agent
    invocations, the outbound requests, the chunks a generator yields) and
    how it ends (a returned value or a raised exception).  The external
    collaborators are variables of the sections that define the handlers. *)

From Stdlib Require Import ZArith QArith Ascii String.
From stdpp Require Import base option list strings gmap fin_maps pretty.

#[local] Set Warnings "-register-all".
#[local] Open Scope string_scope.
#[local] Open Scope Z_scope.

(** ** Python values, exceptions and effects *)

(** The Python objects [json.loads] produces, which are also the objects a
    JSON request body is made of.  A [float] is kept as the rational its
    literal denotes ([0.7] as [7 # 10]): no arithmetic is done on it. *)
Inductive pyvalue : Type :=
| VNone
| VBool (b : bool)
| VInt (n : Z)
| VFloat (q : Q)
| VStr (s : string)
| VList (l : list pyvalue)
| VDict (d : gmap string pyvalue).

(** A Python [dict] with string keys: the maps the handlers build and
    receive are JSON objects. *)
Abbreviation dict := (gmap string pyvalue).

(** [type(v).__name__], as it appears in an [AttributeError] message. *)
Definition type_name (v : pyvalue) : string :=
  match v with
  | VNone => "NoneType"
  | VBool _ => "bool"
  | VInt _ => "int"
  | VFloat _ => "float"
  | VStr _ => "str"
  | VList _ => "list"
  | VDict _ => "dict"
  end.

(** The exceptions a handler can meet, all of them instances of
    [Exception] (what an [except Exception] clause catches):
    FastAPI's [HTTPException], [httpx.RequestError] with its subclasses
    (connection, DNS and timeout errors), and any other exception, kept as
    its textual message. *)
Inductive exn : Type :=
| HTTPException (status_code : Z) (detail : string)
| RequestError (message : string)
| Exception (message : string).

Inductive outcome (A : Type) : Type :=
| Return (a : A)
| Raise (e : exn).
Arguments Return {A} a.
Arguments Raise {A} e.

Inductive level : Type := INFO | ERROR.

(** The keyword arguments of [client.post(url, json=..., headers=...,
    timeout=...)]. *)
Record http_request : Type := {
  post_url : string;
  post_json : pyvalue;
  post_headers : option (gmap string string);
  post_timeout : Q
}.

(** What the handlers read of an [httpx.Response]: [status_code], [text]
    and the result of the method [json()], which raises when the body is
    not a JSON document. *)
Record http_response : Type := {
  status_code : Z;
  text : string;
  json : outcome pyvalue
}.

(** What a handler does, in order. *)
Inductive event : Type :=
| Log (lvl : level) (msg : string)     (* logger.info / logger.error *)
| AgentRun (query : string)            (* coordinator_agent.run(query) *)
| Post (req : http_request)            (* await client.post(...) *)
| Yield (chunk : string).              (* yield chunk *)

(** A computation: the events it performed and how it ended. *)
Record M (A : Type) : Type := Effects {
  trace : list event;
  result : outcome A
}.
Arguments Effects {A} trace result.
Arguments trace {A} m.
Arguments result {A} m.

#[export] Instance M_ret : MRet M := λ A a, Effects [] (Return a).

#[export] Instance M_bind : MBind M := λ A B k m,
  match result m with
  | Return a => Effects (trace m ++ trace (k a)) (result (k a))
  | Raise e => Effects (trace m) (Raise e)
  end.

Definition raise {A : Type} (e : exn) : M A := Effects [] (Raise e).

Definition emit (ev : event) : M unit := Effects [ev] (Return tt).

(** The answer of an external collaborator, without an event of its own. *)
Definition lift {A : Type} (o : outcome A) : M A := Effects [] o.

(** [try: body except Exception as e: handler e].  The events of the body
    up to the exception stay; the handler runs after them. *)
Definition try_except {A : Type} (body : M A) (handler : exn → M A) : M A :=
  match result body with
  | Return a => body
  | Raise e => Effects (trace body ++ trace (handler e)) (result (handler e))
  end.

Definition log (lvl : level) (msg : string) : M unit := emit (Log lvl msg).

(** [for x in xs: body x] *)
Fixpoint for_each {A : Type} (xs : list A) (body : A → M unit) : M unit :=
  match xs with
  | [] => mret tt
  | x :: xs' => body x;; for_each xs' body
  end.

(** The chunks a generator yielded, the outbound requests and the agent
    invocations of a trace. *)
Definition yields (t : list event) : list string :=
  omap (λ ev, match ev with Yield c => Some c | _ => None end) t.

Definition posts (t : list event) : list http_request :=
  omap (λ ev, match ev with Post r => Some r | _ => None end) t.

Definition agent_runs (t : list event) : list string :=
  omap (λ ev, match ev with AgentRun q => Some q | _ => None end) t.

Definition logged (lvl : level) (t : list event) : list string :=
  omap (λ ev, match ev with
              | Log INFO m => if lvl is INFO then Some m else None
              | Log ERROR m => if lvl is ERROR then Some m else None
              | _ => None
              end) t.

(** ** Python strings

    A [str] is kept as its UTF-8 bytes.  The separator of the streaming
    endpoint is the space U+0020, one byte that occurs in the encoding of
    no other character, so splitting the bytes is splitting the text. *)

(** [s.split(sep)] for a separator of one character: every occurrence
    of [sep] ends a field, empty fields are kept, and the result is never
    empty ([''.split(' ') == ['']]). *)
Fixpoint split (sep : Ascii.ascii) (s : string) : list string :=
  match s with
  | EmptyString => [EmptyString]
  | String c rest =>
      if Ascii.eqb c sep then EmptyString :: split sep rest
      else match split sep rest with
           | field :: fields => String c field :: fields
           | [] => [String c EmptyString]
           end
  end.

(** [''.join(chunks)] *)
Definition join (chunks : list string) : string :=
  foldr String.append EmptyString chunks.

(** [s.rstrip(sep)]: [s] without all its trailing occurrences of [sep]. *)
Fixpoint rstrip (sep : Ascii.ascii) (s : string) : string :=
  match s with
  | EmptyString => EmptyString
  | String c rest =>
      match rstrip sep rest with
      | EmptyString => if Ascii.eqb c sep then EmptyString else String c EmptyString
      | kept => String c kept
      end
  end.

(** [s.endswith(sep)] *)
Fixpoint endswith (sep : Ascii.ascii) (s : string) : bool :=
  match s with
  | EmptyString => false
  | String c EmptyString => Ascii.eqb c sep
  | String _ rest => endswith sep rest
  end.

(** [needle in s] *)
Fixpoint contains (needle s : string) : bool :=
  String.prefix needle s ||
  match s with
  | EmptyString => false
  | String _ rest => contains needle rest
  end.

(** ** Python dictionaries *)

(** [v.get(key, default)]: a lookup with a default on a [dict], an
    [AttributeError] on every other JSON value. *)
Definition get (v : pyvalue) (key : string) (default_ : pyvalue) : outcome pyvalue :=
  match v with
  | VDict d => Return (default default_ (d !! key))
  | _ => Raise (Exception ("'" ++ type_name v ++ "' object has no attribute 'get'"))
  end.

(** [{**d, **src}]: the keys of [src] are written over those of [d]. *)
Definition dict_update (d src : dict) : dict := src ∪ d.

(** [x or alt] for an optional [dict]: [None] and the empty [dict] are
    both false. *)
Definition or_else (x : option dict) (alt : dict) : dict :=
  match x with
  | Some d => if bool_decide (d = ∅) then alt else d
  | None => alt
  end.

(** ** Library behaviour the repository does not pin down

    The handlers put [str(e)] of the exception they caught in the detail of
    the error they raise, and write the parsed JSON of the upstream reply
    into a log line.  For an exception other than [HTTPException], [str(e)]
    is its message.  For [HTTPException] it is what the installed Starlette
    makes of the status code and the detail; the rendering of a parsed JSON
    value in an f-string is Python's.  Both are taken as given. *)
Class Libraries : Type := {
  HTTPException_str : Z → string → string;
  format : pyvalue → string
}.

(** [str(e)] *)
Definition str `{Libraries} (e : exn) : string :=
  match e with
  | HTTPException status_code detail => HTTPException_str status_code detail
  | RequestError message => message
  | Exception message => message
  end.

(** ** The text gateway ([app.py]) *)
Module TextGateway.

(** [class AgentRequest(BaseModel)]: [query: str], [context: dict = {}] *)
Record AgentRequest : Type := {
  query : string;
  context : dict
}.

(** [class AgentResponse(BaseModel)]: [response: str],
    [status: str = "success"] *)
Record AgentResponse : Type := {
  response : string;
  status : string
}.

(** [StreamingResponse(content, media_type=...)].  The content is a
    generator object: the computation of its body is kept unrun, its
    events and its exception are not those of the handler that built
    the response.  The server runs it when it sends the body. *)
Record StreamingResponse : Type := {
  body_iterator : M unit;
  media_type : string
}.

Section Handlers.
Context `{Libraries}.

(** [coordinator_agent.run]: the completion of the model for a query, or
    the exception the invocation ends with. *)
Variable coordinator_agent_run : string → outcome string.

Definition run (query : string) : M string :=
  emit (AgentRun query);; lift (coordinator_agent_run query).

(** [@app.post("/agent")] *)
Definition process_query (request : AgentRequest) : M AgentResponse :=
  try_except
    (log INFO ("Processing query: " ++ query request);;
     response ← run (query request);
     log INFO ("Agent response: " ++ response);;
     mret {| response := response; status := "success" |})
    (λ e,
       log ERROR ("Error processing query: " ++ str e);;
       raise (HTTPException 500 (str e))).

(** The generator [generate()] that [process_query_streaming] defines. *)
Definition generate (request : AgentRequest) : M unit :=
  response ← run (query request);
  let chunks := split " "%char response in
  for_each chunks (λ chunk, emit (Yield (chunk ++ " "))).

(** [@app.post("/agent-streaming")] *)
Definition process_query_streaming (request : AgentRequest) : M StreamingResponse :=
  try_except
    (log INFO ("Processing streaming query: " ++ query request);;
     mret {| body_iterator := generate request;
             media_type := "text/event-stream" |})
    (λ e,
       log ERROR ("Error in streaming: " ++ str e);;
       raise (HTTPException 500 (str e))).

End Handlers.

End TextGateway.

(** ** The voice gateway ([voice_agent.py]) *)
Module VoiceGateway.

(** [class VoiceQuery(BaseModel)]: [transcribed_text: str],
    [session_id: str = None] *)
Module VoiceQuery.
Record t : Type := new {
  transcribed_text : string;
  session_id : option string
}.
End VoiceQuery.

(** [class VoiceResponse(BaseModel)]: [response: str],
    [session_id: str = None] *)
Module VoiceResponse.
Record t : Type := new {
  response : string;
  session_id : option string
}.
End VoiceResponse.

Section Handlers.
Context `{Libraries}.

(** The configuration read from the environment at start-up. *)
Variable ULTRAVOX_API_KEY : string.
Variable STRANDS_BACKEND_URL : string.

(** The network: what [await client.post(...)] comes back with. *)
Variable client_post : http_request → outcome http_response.

(** What the installed pydantic makes of [VoiceResponse(response=v,
    session_id=s)] when [v] is not a [str] or [s] is [None]: versions
    differ on coercing a number to a [str] and on accepting an explicit
    [None] for a field declared [str = None]. *)
Variable VoiceResponse_validate : pyvalue → option string → outcome VoiceResponse.t.

(** [VoiceResponse(response=..., session_id=...)]: two strings are
    taken as they are. *)
Definition VoiceResponse_init (response : pyvalue) (session_id : option string)
  : outcome VoiceResponse.t :=
  match response, session_id with
  | VStr r, Some s => Return (VoiceResponse.new r (Some s))
  | _, _ => VoiceResponse_validate response session_id
  end.

Definition post (req : http_request) : M http_response :=
  emit (Post req);; lift (client_post req).

(** The request [query_voice_agent] sends to the text gateway. *)
Definition agent_request (query : VoiceQuery.t) : http_request :=
  {| post_url := STRANDS_BACKEND_URL ++ "/agent";
     post_json := VDict {[ "query" := VStr (VoiceQuery.transcribed_text query) ]};
     post_headers := None;
     post_timeout := 30 |}.

(** The [try] block of [query_voice_agent]. *)
Definition query_voice_agent_try (query : VoiceQuery.t) : M VoiceResponse.t :=
  log INFO ("Processing voice query: " ++ VoiceQuery.transcribed_text query);;
  response ← post (agent_request query);
  (if negb (status_code response =? 200) then
     log ERROR ("Backend error: " ++ text response);;
     raise (HTTPException (status_code response) "Error from backend agent")
   else mret tt);;
  backend_response ← lift (json response);
  log INFO ("Backend response: " ++ format backend_response);;
  field ← lift (get backend_response "response" (VStr EmptyString));
  lift (VoiceResponse_init field (VoiceQuery.session_id query)).

(** The [except] clauses of [query_voice_agent], in their order. *)
Definition query_voice_agent_except (e : exn) : M VoiceResponse.t :=
  match e with
  | RequestError _ =>
      log ERROR ("Request error: " ++ str e);;
      raise (HTTPException 503 "Unable to reach backend service")
  | _ =>
      log ERROR ("Error processing voice query: " ++ str e);;
      raise (HTTPException 500 (str e))
  end.

(** [@app.post("/query-agent")] *)
Definition query_voice_agent (query : VoiceQuery.t) : M VoiceResponse.t :=
  try_except (query_voice_agent_try query) query_voice_agent_except.

(** The defaults of a call, the first three entries of [call_data]. *)
Definition call_defaults : dict :=
  {[ "systemPrompt" := VStr "You are a helpful voice assistant powered by Strands Agent Team. Answer questions concisely and naturally.";
     "model" := VStr "fixie-ai/ultravox";
     "temperature" := VFloat (7 # 10) ]}.

(** [call_data = {<defaults>, **(call_config or {})}] *)
Definition call_data (call_config : option dict) : dict :=
  dict_update call_defaults (or_else call_config ∅).

Definition headers : gmap string string :=
  {[ "Authorization" := "Bearer " ++ ULTRAVOX_API_KEY;
     "Content-Type" := "application/json" ]}.

(** The request [create_voice_call] sends to Ultravox. *)
Definition call_request (call_config : option dict) : http_request :=
  {| post_url := "https://api.fixie.ai/ultravox/calls";
     post_json := VDict (call_data call_config);
     post_headers := Some headers;
     post_timeout := 30 |}.

(** [status_code not in [200, 201]] *)
Definition not_in_200_201 (status_code : Z) : bool :=
  negb ((status_code =? 200) || (status_code =? 201)).

(** The [try] block of [create_voice_call]. *)
Definition create_voice_call_try (call_config : option dict) : M dict :=
  log INFO "Creating new Ultravox voice call";;
  response ← post (call_request call_config);
  (if not_in_200_201 (status_code response) then
     log ERROR ("Ultravox error: " ++ text response);;
     raise (HTTPException (status_code response) "Error creating call with Ultravox")
   else mret tt);;
  call_response ← lift (json response);
  log INFO ("Created call: " ++ format call_response);;
  call_id ← lift (get call_response "call_id" VNone);
  join_url ← lift (get call_response "join_url" VNone);
  mret ({[ "call_id" := call_id;
           "join_url" := join_url;
           "status" := VStr "created" ]} : dict).

(** The [except] clauses of [create_voice_call], in their order. *)
Definition create_voice_call_except (e : exn) : M dict :=
  match e with
  | RequestError _ =>
      log ERROR ("Request error: " ++ str e);;
      raise (HTTPException 503 "Ultravox service unavailable")
  | _ =>
      log ERROR ("Error creating call: " ++ str e);;
      raise (HTTPException 500 (str e))
  end.

(** [@app.post("/create-call")] *)
Definition create_voice_call (call_config : option dict) : M dict :=
  try_except (create_voice_call_try call_config) create_voice_call_except.

End Handlers.

End VoiceGateway.

(** ** Start-up: the module-level code of the two services *)

(** [os.environ] *)
Abbreviation environ := (gmap string string).

(** [os.getenv(key)]: [None] when the variable is not set. *)
Definition getenv (env : environ) (key : string) : option string := env !! key.

(** [bool(s)] for the result of [os.getenv]: [None] and the empty string
    are false. *)
Definition truthy (s : option string) : bool :=
  match s with
  | Some (String _ _) => true
  | Some EmptyString => false
  | None => false
  end.

(** [s.count(c)] for a one-character [c]. *)
Fixpoint count (c : Ascii.ascii) (s : string) : nat :=
  match s with
  | EmptyString => 0%nat
  | String c' rest => ((if Ascii.eqb c' c then 1 else 0) + count c rest)%nat
  end.

(** The module-level code of [app.py].  The construction of the model
    client and of the agent, which follows the check of the key, is left
    to the SDK. *)
Module TextStartup.

(** [openai_api_key = os.getenv("OPENAI_API_KEY")], and the check that
    follows it. *)
Definition openai_api_key (env : environ) : outcome (option string) :=
  let openai_api_key := getenv env "OPENAI_API_KEY" in
  if negb (truthy openai_api_key) then
    Raise (Exception "OPENAI_API_KEY environment variable is not set")
  else Return openai_api_key.

End TextStartup.

(** The module-level code of [voice_agent.py], and the endpoint [/info]
    that reports it. *)
Module VoiceStartup.

(** The three globals of the module. *)
Record Settings : Type := {
  ULTRAVOX_API_KEY : option string;
  STRANDS_BACKEND_URL : string;
  VOICE_PORT : Z
}.

Section Startup.

(** [int(s)] on a [str], Python's. *)
Variable int : string → outcome Z.

(** Lines 25 to 30: the three globals are read in their order, the port
    is parsed as it is read, and the key is checked last. *)
Definition load (env : environ) : outcome Settings :=
  let ULTRAVOX_API_KEY := getenv env "ULTRAVOX_API_KEY" in
  let STRANDS_BACKEND_URL := default "http://10.0.0.3:8000" (getenv env "STRANDS_BACKEND_URL") in
  match (match getenv env "VOICE_PORT" with
         | Some s => int s
         | None => Return 8003
         end) with
  | Raise e => Raise e
  | Return VOICE_PORT =>
      if negb (truthy ULTRAVOX_API_KEY) then
        Raise (Exception "ULTRAVOX_API_KEY environment variable is not set")
      else
        Return {| ULTRAVOX_API_KEY := ULTRAVOX_API_KEY;
                  STRANDS_BACKEND_URL := STRANDS_BACKEND_URL;
                  VOICE_PORT := VOICE_PORT |}
  end.

End Startup.

(** [@app.get("/info")] *)
Definition info (globals : Settings) : dict :=
  {[ "service" := VStr "voice-agent-gateway";
     "backend_url" := VStr (STRANDS_BACKEND_URL globals);
     "voice_port" := VInt (VOICE_PORT globals);
     "ultravox_enabled" := VBool (truthy (ULTRAVOX_API_KEY globals)) ]}.

End VoiceStartup.

(** ** Sample collaborators

    Concrete libraries, agents and networks, on which the handlers are run
    in the examples below. *)

(** A sample [int], narrower than Python's: it reads a string of decimal
    digits and refuses everything else, also the signs, the surrounding
    blanks and the underscores that Python's [int] accepts, and its message
    is without the literal Python's message ends with.  The examples use
    it on strings that both read, or both refuse. *)
Fixpoint digits_value (acc : Z) (s : string) : option Z :=
  match s with
  | EmptyString => Some acc
  | String c rest =>
      let n := Z.of_nat (nat_of_ascii c) in
      if (48 <=? n) && (n <=? 57) then digits_value (10 * acc + (n - 48)) rest
      else None
  end.

Definition decimal_int (s : string) : outcome Z :=
  match s with
  | EmptyString => Raise (Exception "invalid literal for int() with base 10")
  | _ => match digits_value 0 s with
         | Some n => Return n
         | None => Raise (Exception "invalid literal for int() with base 10")
         end
  end.

(** Starlette's [HTTPException.__str__], which returns
    [f"{self.status_code}: {self.detail}"], and a rendering of JSON values
    by the name of their type. *)
Definition starlette : Libraries := {|
  HTTPException_str status_code detail := pretty status_code ++ ": " ++ detail;
  format v := "<" ++ type_name v ++ ">"
|}.

(** An agent that answers every query with the same completion. *)
Definition constant_agent (completion : string) : string → outcome string :=
  λ _, Return completion.

(** An agent whose invocation raises, as on a rate limit. *)
Definition failing_agent (message : string) : string → outcome string :=
  λ _, Raise (Exception message).

(** A network on which every outbound call gets the same reply. *)
Definition replying (reply : http_response) : http_request → outcome http_response :=
  λ _, Return reply.

(** A network on which no outbound call gets through. *)
Definition unreachable (message : string) : http_request → outcome http_response :=
  λ _, Raise (RequestError message).

(** A pydantic that refuses whatever is not of the declared type. *)
Definition strict_validate (v : pyvalue) (s : option string)
  : outcome VoiceGateway.VoiceResponse.t :=
  Raise (Exception "1 validation error for VoiceResponse").

(** [s] between double quotes, as in a JSON document. *)
Definition quoted (s : string) : string :=
  String "034"%char (s ++ String "034"%char EmptyString).

(** A reply with a JSON body. *)
Definition json_reply (status_code : Z) (text : string) (body : pyvalue) : http_response :=
  {| status_code := status_code; text := text; json := Return body |}.

(** A reply whose body is not JSON. *)
Definition text_reply (status_code : Z) (text : string) : http_response :=
  {| status_code := status_code; text := text;
     json := Raise (Exception "Expecting value: line 1 column 1 (char 0)") |}.

(** A caller with a session id, and the backend address of the source. *)
Definition sample_query : VoiceGateway.VoiceQuery.t :=
  VoiceGateway.VoiceQuery.new "what is on my calendar" (Some "session-1").

Definition sample_backend_url : string := "http://10.0.0.3:8000".

(** A backend that is the text gateway around an agent: on the object
    with the field [query] it replies 200 with the envelope of
    [process_query], on a failure with the status and the detail of the
    error. *)
Definition text_gateway_backend (agent : string → outcome string)
  : http_request → outcome http_response := λ req,
  match post_json req with
  | VDict body =>
      match body !! "query" with
      | Some (VStr q) =>
          match result (TextGateway.process_query (H:=starlette) agent
                          (TextGateway.Build_AgentRequest q ∅)) with
          | Return envelope =>
              Return (json_reply 200 "{...}"
                        (VDict {[ "response" := VStr (TextGateway.response envelope);
                                  "status" := VStr (TextGateway.status envelope) ]}))
          | Raise (HTTPException status detail) =>
              Return (json_reply status "{...}" (VDict {[ "detail" := VStr detail ]}))
          | Raise _ => Return (text_reply 500 "Internal Server Error")
          end
      | _ => Return (text_reply 422 "Unprocessable Entity")
      end
  | _ => Return (text_reply 422 "Unprocessable Entity")
  end.

(** An environment with the key of the voice API and nothing else, and
    one with a port that is not a number. *)
Definition sample_environ : environ :=
  {[ "ULTRAVOX_API_KEY" := "secret" ]}.

Definition sample_environ_bad_port : environ :=
  {[ "ULTRAVOX_API_KEY" := "secret"; "VOICE_PORT" := "eighty" ]}.

(** ** Proof steps *)

(** Runs a handler as far as the answers of its collaborators are known. *)
Ltac run_handler :=
  cbv [mbind M_bind try_except];
  cbn [result trace app emit lift log raise mret M_ret].

(** ** Strings: splitting and joining *)

Lemma split_not_nil sep s : split sep s ≠ [].
Proof.
  destruct s as [|c rest]; simpl; [done|].
  destruct (Ascii.eqb c sep); [done|].
  by destruct (split sep rest).
Qed.

(** Every field followed by the separator, joined: the string followed by
    one separator. *)
Lemma join_split_sep sep s :
  join (map (λ chunk, chunk ++ String sep EmptyString) (split sep s))
  = s ++ String sep EmptyString.
Proof.
  induction s as [|c rest IH]; simpl; [done|].
  destruct (Ascii.eqb_spec c sep) as [->|Hne].
  - simpl. rewrite IH. reflexivity.
  - destruct (split sep rest) as [|field fields] eqn:Hsplit.
    + by apply split_not_nil in Hsplit.
    + simpl in *. change (String c ((field +:+ String sep EmptyString) +:+
        join (map (λ chunk, chunk +:+ String sep EmptyString) fields))
        = String c (rest +:+ String sep EmptyString)).
      by rewrite IH.
Qed.

Lemma rstrip_app_sep sep s :
  rstrip sep (s ++ String sep EmptyString) = rstrip sep s.
Proof.
  induction s as [|c rest IH].
  - simpl. by rewrite Ascii.eqb_refl.
  - change (match rstrip sep (rest +:+ String sep EmptyString) with
            | EmptyString => if Ascii.eqb c sep then EmptyString else String c EmptyString
            | kept => String c kept
            end = rstrip sep (String c rest)).
    by rewrite IH.
Qed.

Lemma rstrip_not_endswith sep s :
  endswith sep s = false → rstrip sep s = s.
Proof.
  induction s as [|c rest IH]; [done|].
  destruct rest as [|c' rest'].
  - simpl. by intros ->.
  - intros Hend. change (endswith sep (String c' rest') = false) in Hend.
    change (rstrip sep (String c (String c' rest')))
      with (match rstrip sep (String c' rest') with
            | EmptyString => if Ascii.eqb c sep then EmptyString else String c EmptyString
            | kept => String c kept
            end).
    by rewrite (IH Hend).
Qed.

Lemma endswith_rstrip sep s : endswith sep (rstrip sep s) = false.
Proof.
  induction s as [|c rest IH]; [done|].
  simpl. destruct (rstrip sep rest) as [|c' kept] eqn:Hkept.
  - destruct (Ascii.eqb c sep) eqn:Hc; simpl; [done|by rewrite Hc].
  - done.
Qed.

(** ** Computations *)

Lemma for_each_yield (f : string → string) (xs : list string) :
  for_each xs (λ x, emit (Yield (f x))) = Effects (map (λ x, Yield (f x)) xs) (Return tt).
Proof.
  induction xs as [|x xs IH]; [done|].
  simpl. unfold mbind, M_bind. simpl. by rewrite IH.
Qed.

Lemma yields_map_Yield (chunks : list string) :
  yields (map Yield chunks) = chunks.
Proof.
  induction chunks as [|c chunks IH]; [done|].
  unfold yields in *. cbn. by f_equal.
Qed.

Lemma agent_runs_map_Yield (chunks : list string) :
  agent_runs (map Yield chunks) = [].
Proof. induction chunks as [|c chunks IH]; [done|]. unfold agent_runs in *. by cbn. Qed.

(** ** The text gateway *)

Section TextGatewayFacts.
Import TextGateway.
Context `{Libraries}.
Variable coordinator_agent_run : string → outcome string.

#[local] Abbreviation process_query := (process_query coordinator_agent_run).
#[local] Abbreviation generate := (generate coordinator_agent_run).
#[local] Abbreviation process_query_streaming :=
  (process_query_streaming coordinator_agent_run).

(** What [process_query] does, by the outcome of the agent. *)
Lemma process_query_run request :
  process_query request =
  match coordinator_agent_run (query request) with
  | Return completion =>
      Effects [Log INFO ("Processing query: " ++ query request);
               AgentRun (query request);
               Log INFO ("Agent response: " ++ completion)]
              (Return {| response := completion; status := "success" |})
  | Raise e =>
      Effects [Log INFO ("Processing query: " ++ query request);
               AgentRun (query request);
               Log ERROR ("Error processing query: " ++ str e)]
              (Raise (HTTPException 500 (str e)))
  end.
Proof.
  unfold TextGateway.process_query, run, try_except, log, emit, lift, mbind, M_bind.
  cbn. by destruct (coordinator_agent_run (query request)).
Qed.

(** What the generator does when it is run, by the outcome of the agent. *)
Lemma generate_run request :
  generate request =
  match coordinator_agent_run (query request) with
  | Return completion =>
      Effects (AgentRun (query request)
                 :: map (λ chunk, Yield (chunk ++ " ")) (split " " completion))
              (Return tt)
  | Raise e => Effects [AgentRun (query request)] (Raise e)
  end.
Proof.
  unfold TextGateway.generate, run.
  destruct (coordinator_agent_run (query request)) as [completion|e];
    cbv [mbind M_bind]; cbn [result trace emit lift app]; [|done].
  by rewrite (for_each_yield (λ chunk, chunk ++ " ")).
Qed.

(** The streaming handler only builds the response: its [try] block
    cannot raise, whatever the agent will do. *)
Lemma process_query_streaming_run request :
  process_query_streaming request =
  Effects [Log INFO ("Processing streaming query: " ++ query request)]
          (Return {| body_iterator := generate request;
                     media_type := "text/event-stream" |}).
Proof. reflexivity. Qed.

(** C3, as amended.  When the agent answers a query with a completion,
    [process_query] returns that completion, and the chunks of the
    streaming response, joined, are the completion followed by exactly one
    separator: without that final separator they are the completion.
    Stripped of all their trailing separators they are the completion if
    and only if the completion does not end with a separator itself. *)
Theorem streaming_rechunks_completion request completion :
  coordinator_agent_run (query request) = Return completion →
  ∃ streaming,
    result (process_query_streaming request) = Return streaming ∧
    result (process_query request)
      = Return {| response := completion; status := "success" |} ∧
    result (body_iterator streaming) = Return tt ∧
    join (yields (trace (body_iterator streaming))) = completion ++ " " ∧
    (rstrip " " (join (yields (trace (body_iterator streaming)))) = completion
     ↔ endswith " " completion = false).
Proof.
  intros Hrun. eexists. rewrite process_query_streaming_run. split; [done|].
  cbn [body_iterator]. rewrite process_query_run, generate_run, Hrun.
  cbn [result trace].
  assert (join (yields (AgentRun (query request)
            :: map (λ chunk, Yield (chunk ++ " ")) (split " " completion)))
          = completion ++ " ") as Hjoin.
  { change (join (yields (map (λ chunk, Yield (chunk ++ " ")) (split " " completion)))
            = completion ++ " ").
    rewrite <- (map_map (λ chunk, chunk ++ " ") Yield), yields_map_Yield.
    apply join_split_sep. }
  rewrite Hjoin, rstrip_app_sep.
  repeat split; try done.
  - intros Heq. rewrite <- Heq. apply endswith_rstrip.
  - apply rstrip_not_endswith.
Qed.

(** C8.  When the agent answers, [process_query] returns the envelope
    with the completion as [response] and ["success"] as [status]; when
    the agent raises, it fails with HTTP 500 and the message of the
    exception as detail. *)
Theorem process_query_envelope request :
  (∀ completion,
     coordinator_agent_run (query request) = Return completion →
     result (process_query request)
     = Return {| response := completion; status := "success" |}) ∧
  (∀ e,
     coordinator_agent_run (query request) = Raise e →
     result (process_query request) = Raise (HTTPException 500 (str e))).
Proof.
  split; intros ? Hrun; by rewrite process_query_run, Hrun.
Qed.

(** C9.  Two requests with the same query and different contexts get the
    same result, events included, from [process_query] and from
    [process_query_streaming]; the agent is invoked on the query text
    alone. *)
Theorem context_not_forwarded q (context1 context2 : dict) :
  process_query {| query := q; context := context1 |}
  = process_query {| query := q; context := context2 |} ∧
  process_query_streaming {| query := q; context := context1 |}
  = process_query_streaming {| query := q; context := context2 |} ∧
  agent_runs (trace (process_query {| query := q; context := context1 |})) = [q] ∧
  agent_runs (trace (generate {| query := q; context := context1 |})) = [q].
Proof.
  split; [reflexivity|]. split; [reflexivity|]. split.
  - rewrite !process_query_run. cbn [query].
    by destruct (coordinator_agent_run q).
  - rewrite !generate_run. cbn [query].
    destruct (coordinator_agent_run q) as [completion|e]; [|done].
    cbn [trace]. change (q :: agent_runs (map (λ chunk, Yield (chunk ++ " "))
                                           (split " " completion)) = [q]).
    by rewrite <- (map_map (λ chunk, chunk ++ " ") Yield), agent_runs_map_Yield.
Qed.

End TextGatewayFacts.

(** The hypothesis of [streaming_rechunks_completion] holds of an agent
    that answers, and the theorem gives the chunks of its completion. *)
Lemma streaming_rechunks_completion_witness :
  let request := TextGateway.Build_AgentRequest "plan the launch" ∅ in
  let completion := "Draft, review, ship." in
  constant_agent completion (TextGateway.query request) = Return completion ∧
  ∃ streaming,
    result (TextGateway.process_query_streaming (H:=starlette)
              (constant_agent completion) request) = Return streaming ∧
    result (TextGateway.process_query (H:=starlette) (constant_agent completion) request)
      = Return (TextGateway.Build_AgentResponse completion "success") ∧
    result (TextGateway.body_iterator streaming) = Return tt ∧
    join (yields (trace (TextGateway.body_iterator streaming))) = completion ++ " " ∧
    (rstrip " " (join (yields (trace (TextGateway.body_iterator streaming)))) = completion
     ↔ endswith " " completion = false).
Proof.
  split; [reflexivity|].
  apply (streaming_rechunks_completion (H:=starlette)
           (constant_agent "Draft, review, ship.")
           (TextGateway.Build_AgentRequest "plan the launch" ∅)
           "Draft, review, ship.").
  reflexivity.
Defined.

(** C3, as stated, fails on a completion that ends with a space: the
    chunks of ["ok "] are ["ok "] and [" "], and stripping their
    concatenation of its trailing separators leaves ["ok"]. *)
Lemma streaming_rstrip_counterexample :
  let request := TextGateway.Build_AgentRequest "status?" ∅ in
  ∃ streaming envelope,
    result (TextGateway.process_query_streaming (H:=starlette)
              (constant_agent "ok ") request) = Return streaming ∧
    result (TextGateway.process_query (H:=starlette) (constant_agent "ok ") request)
      = Return envelope ∧
    yields (trace (TextGateway.body_iterator streaming)) = ["ok "; " "] ∧
    rstrip " " (join (yields (trace (TextGateway.body_iterator streaming))))
      ≠ TextGateway.response envelope.
Proof.
  intros request. eexists. eexists.
  split; [reflexivity|]. split; [reflexivity|]. split; [reflexivity|].
  vm_compute. discriminate.
Qed.

(** C4, at an agent that raises.  The handler has returned its streaming
    response, without an error and before the agent is invoked; the
    exception of the agent ends the generator when the body is sent, and no
    [HTTPException] with status 500 is raised anywhere. *)
Theorem streaming_agent_failure_not_500 :
  let request := TextGateway.Build_AgentRequest "plan the launch" ∅ in
  let handled := TextGateway.process_query_streaming (H:=starlette)
                   (failing_agent "rate limit exceeded") request in
  (∃ streaming,
     result handled = Return streaming ∧
     TextGateway.media_type streaming = "text/event-stream" ∧
     TextGateway.body_iterator streaming
       = Effects [AgentRun "plan the launch"] (Raise (Exception "rate limit exceeded"))) ∧
  result handled ≠ Raise (HTTPException 500 "rate limit exceeded") ∧
  agent_runs (trace handled) = [] ∧
  logged ERROR (trace handled) = [].
Proof.
  intros request handled. split; [|split; [discriminate|split; reflexivity]].
  eexists. split; [reflexivity|]. split; reflexivity.
Qed.

(** Both halves of [process_query_envelope], on an agent that answers and
    on one that raises. *)
Lemma process_query_envelope_witness :
  let request := TextGateway.Build_AgentRequest "plan the launch" ∅ in
  result (TextGateway.process_query (H:=starlette)
            (constant_agent "Draft, review, ship.") request)
    = Return (TextGateway.Build_AgentResponse "Draft, review, ship." "success") ∧
  result (TextGateway.process_query (H:=starlette)
            (failing_agent "rate limit exceeded") request)
    = Raise (HTTPException 500 "rate limit exceeded").
Proof.
  intros request. split.
  - apply (proj1 (process_query_envelope (H:=starlette)
                    (constant_agent "Draft, review, ship.") request)).
    reflexivity.
  - apply (proj2 (process_query_envelope (H:=starlette)
                    (failing_agent "rate limit exceeded") request)
             (Exception "rate limit exceeded")).
    reflexivity.
Defined.

(** ** Dictionaries *)

Lemma or_else_empty (x : option dict) : or_else x ∅ = default ∅ x.
Proof.
  destruct x as [d|]; [|done]. simpl.
  case_bool_decide; by subst.
Qed.

(** The keys of the source win, the other keys keep their value. *)
Lemma lookup_dict_update (d src : dict) key :
  dict_update d src !! key
  = match src !! key with Some v => Some v | None => d !! key end.
Proof.
  unfold dict_update. rewrite lookup_union.
  by destruct (src !! key), (d !! key).
Qed.

(** ** The voice gateway *)

Section VoiceGatewayFacts.
Import VoiceGateway.
Context `{Libraries}.
Variable ULTRAVOX_API_KEY : string.
Variable STRANDS_BACKEND_URL : string.
Variable client_post : http_request → outcome http_response.
Variable VoiceResponse_validate : pyvalue → option string → outcome VoiceResponse.t.

#[local] Abbreviation agent_request := (agent_request STRANDS_BACKEND_URL).
#[local] Abbreviation query_voice_agent_try :=
  (query_voice_agent_try STRANDS_BACKEND_URL client_post VoiceResponse_validate).
#[local] Abbreviation query_voice_agent :=
  (query_voice_agent STRANDS_BACKEND_URL client_post VoiceResponse_validate).
#[local] Abbreviation VoiceResponse_init := (VoiceResponse_init VoiceResponse_validate).
#[local] Abbreviation call_request := (call_request ULTRAVOX_API_KEY).
#[local] Abbreviation create_voice_call_try :=
  (create_voice_call_try ULTRAVOX_API_KEY client_post).
#[local] Abbreviation create_voice_call :=
  (create_voice_call ULTRAVOX_API_KEY client_post).

(** The [try] block of [query_voice_agent], by what comes back from the
    backend. *)
Lemma query_voice_agent_try_run query :
  query_voice_agent_try query =
  let started := [Log INFO ("Processing voice query: " ++ VoiceQuery.transcribed_text query);
                  Post (agent_request query)] in
  match client_post (agent_request query) with
  | Raise e => Effects started (Raise e)
  | Return response =>
      if negb (status_code response =? 200) then
        Effects (started ++ [Log ERROR ("Backend error: " ++ text response)])%list
                (Raise (HTTPException (status_code response) "Error from backend agent"))
      else
        match json response with
        | Raise e => Effects started (Raise e)
        | Return backend_response =>
            let decoded := (started ++ [Log INFO ("Backend response: " ++ format backend_response)])%list in
            match get backend_response "response" (VStr EmptyString) with
            | Raise e => Effects decoded (Raise e)
            | Return field =>
                Effects decoded (VoiceResponse_init field (VoiceQuery.session_id query))
            end
        end
  end.
Proof.
  unfold VoiceGateway.query_voice_agent_try, post.
  destruct (client_post (agent_request query)) as [response|e]; run_handler; [|done].
  destruct (negb (status_code response =? 200)); run_handler; [done|].
  destruct (json response) as [backend_response|e]; run_handler; [|done].
  by destruct (get backend_response "response" (VStr EmptyString)).
Qed.

(** The [try] block of [create_voice_call], by what comes back from
    Ultravox. *)
Lemma create_voice_call_try_run call_config :
  create_voice_call_try call_config =
  let started := [Log INFO "Creating new Ultravox voice call";
                  Post (call_request call_config)] in
  match client_post (call_request call_config) with
  | Raise e => Effects started (Raise e)
  | Return response =>
      if not_in_200_201 (status_code response) then
        Effects (started ++ [Log ERROR ("Ultravox error: " ++ text response)])%list
                (Raise (HTTPException (status_code response)
                          "Error creating call with Ultravox"))
      else
        match json response with
        | Raise e => Effects started (Raise e)
        | Return call_response =>
            let decoded := (started ++ [Log INFO ("Created call: " ++ format call_response)])%list in
            match get call_response "call_id" VNone, get call_response "join_url" VNone with
            | Return call_id, Return join_url =>
                Effects decoded (Return {[ "call_id" := call_id;
                                           "join_url" := join_url;
                                           "status" := VStr "created" ]})
            | Raise e, _ => Effects decoded (Raise e)
            | _, Raise e => Effects decoded (Raise e)
            end
        end
  end.
Proof.
  unfold VoiceGateway.create_voice_call_try, post.
  destruct (client_post (call_request call_config)) as [response|e]; run_handler; [|done].
  destruct (not_in_200_201 (status_code response)); run_handler; [done|].
  destruct (json response) as [call_response|e]; run_handler; [|done].
  destruct (get call_response "call_id" VNone); run_handler; [|done].
  by destruct (get call_response "join_url" VNone).
Qed.

(** An exception other than a transport error leaves the handler as an
    [HTTPException]. *)
Lemma query_voice_agent_except_HTTPException e :
  ∃ status_code detail,
    result (query_voice_agent_except e) = Raise (HTTPException status_code detail).
Proof. destruct e; simpl; eauto. Qed.

Lemma create_voice_call_except_HTTPException e :
  ∃ status_code detail,
    result (create_voice_call_except e) = Raise (HTTPException status_code detail).
Proof. destruct e; simpl; eauto. Qed.

(** C1, as amended.  When the backend replies with a status other than
    200 (another 2xx status included), the status check of
    [query_voice_agent] raises an [HTTPException] with the upstream status
    code and the fixed detail ["Error from backend agent"]; the upstream
    body goes to the error log and into no detail, what the caller gets
    being made by the [except] clauses from that exception alone; and the
    handler fails with an [HTTPException], it returns no response. *)
Theorem query_voice_agent_backend_error query reply :
  client_post (agent_request query) = Return reply →
  status_code reply ≠ 200 →
  result (query_voice_agent_try query)
    = Raise (HTTPException (status_code reply) "Error from backend agent") ∧
  logged ERROR (trace (query_voice_agent_try query))
    = ["Backend error: " ++ text reply] ∧
  result (query_voice_agent query)
    = result (query_voice_agent_except
                (HTTPException (status_code reply) "Error from backend agent")) ∧
  ∃ status detail,
    result (query_voice_agent query) = Raise (HTTPException status detail).
Proof.
  intros Hpost Hstatus.
  assert (negb (status_code reply =? 200) = true) as Hcheck.
  { apply negb_true_iff, Z.eqb_neq, Hstatus. }
  unfold VoiceGateway.query_voice_agent, try_except.
  rewrite query_voice_agent_try_run, Hpost. cbv zeta. rewrite Hcheck.
  cbn [result trace]. split; [done|]. split; [done|]. split; [done|].
  apply query_voice_agent_except_HTTPException.
Qed.

(** C2, as amended.  A reply of Ultravox with status 200 or 201 passes
    the status check of [create_voice_call]: no upstream error is logged,
    and when the body is a JSON object the handler returns its [call_id]
    and [join_url] with the status ["created"].  On any other status the
    check raises an [HTTPException] with the upstream status code and the
    fixed detail ["Error creating call with Ultravox"]; the upstream body
    goes to the error log and into no detail, what the caller gets being
    made by the [except] clauses from that exception alone; and the handler
    fails with an [HTTPException]. *)
Theorem create_voice_call_status_check call_config reply :
  client_post (call_request call_config) = Return reply →
  (status_code reply = 200 ∨ status_code reply = 201 →
   logged ERROR (trace (create_voice_call_try call_config)) = [] ∧
   ∀ body : dict,
     json reply = Return (VDict body) →
     result (create_voice_call call_config)
     = Return {[ "call_id" := default VNone (body !! "call_id");
                 "join_url" := default VNone (body !! "join_url");
                 "status" := VStr "created" ]}) ∧
  (status_code reply ≠ 200 → status_code reply ≠ 201 →
   result (create_voice_call_try call_config)
     = Raise (HTTPException (status_code reply) "Error creating call with Ultravox") ∧
   logged ERROR (trace (create_voice_call_try call_config))
     = ["Ultravox error: " ++ text reply] ∧
   result (create_voice_call call_config)
     = result (create_voice_call_except
                 (HTTPException (status_code reply) "Error creating call with Ultravox")) ∧
   ∃ status detail,
     result (create_voice_call call_config) = Raise (HTTPException status detail)).
Proof.
  intros Hpost. split.
  - intros Hok.
    assert (not_in_200_201 (status_code reply) = false) as Hcheck.
    { unfold not_in_200_201. apply negb_false_iff, orb_true_iff.
      destruct Hok as [->| ->]; auto. }
    unfold VoiceGateway.create_voice_call, try_except.
    rewrite create_voice_call_try_run, Hpost. cbv zeta. rewrite Hcheck.
    split.
    + destruct (json reply) as [call_response|e]; [|done].
      destruct (get call_response "call_id" VNone),
               (get call_response "join_url" VNone); done.
    + intros body ->. done.
  - intros H200 H201.
    assert (not_in_200_201 (status_code reply) = true) as Hcheck.
    { unfold not_in_200_201. apply negb_true_iff, orb_false_iff.
      split; by apply Z.eqb_neq. }
    unfold VoiceGateway.create_voice_call, try_except.
    rewrite create_voice_call_try_run, Hpost. cbv zeta. rewrite Hcheck.
    cbn [result trace]. split; [done|]. split; [done|]. split; [done|].
    apply create_voice_call_except_HTTPException.
Qed.

(** C5.  [create_voice_call] sends one request, whose JSON payload is
    [call_data call_config]: the default map with the entries of the
    caller written over it.  Key by key the caller wins and the defaults
    fill the rest; with no configuration the payload is the default map,
    whose three entries are the fixed prompt, the model
    ["fixie-ai/ultravox"] and the temperature 0.7; overriding one key
    changes that entry of the defaults and no other. *)
Theorem create_voice_call_payload call_config :
  (∃ sent, posts (trace (create_voice_call call_config)) = [sent] ∧
           post_url sent = "https://api.fixie.ai/ultravox/calls" ∧
           post_json sent = VDict (call_data call_config)) ∧
  (∀ key, call_data call_config !! key
          = match default ∅ call_config !! key with
            | Some v => Some v
            | None => call_defaults !! key
            end) ∧
  call_data None = call_defaults ∧
  call_defaults
  = {[ "systemPrompt" := VStr "You are a helpful voice assistant powered by Strands Agent Team. Answer questions concisely and naturally.";
       "model" := VStr "fixie-ai/ultravox";
       "temperature" := VFloat (7 # 10) ]} ∧
  (∀ key v, call_data (Some {[ key := v ]}) = <[ key := v ]> call_defaults).
Proof.
  split; [|split; [|split; [|split]]].
  - exists (call_request call_config). split; [|done].
    unfold VoiceGateway.create_voice_call, try_except.
    rewrite create_voice_call_try_run. cbv zeta.
    destruct (client_post (call_request call_config)) as [response|e].
    + destruct (not_in_200_201 (status_code response)); [done|].
      destruct (json response) as [call_response|e]; [|by destruct e].
      destruct (get call_response "call_id" VNone) as [?|e]; [|by destruct e].
      destruct (get call_response "join_url" VNone) as [?|e]; [done|by destruct e].
    + by destruct e.
  - intros key. unfold call_data.
    by rewrite lookup_dict_update, or_else_empty.
  - unfold call_data, dict_update. simpl. apply (left_id_L ∅ (∪)).
  - done.
  - intros key v. unfold call_data, dict_update. rewrite or_else_empty. simpl.
    symmetry. apply insert_union_singleton_l.
Qed.

(** The success path of [query_voice_agent].  When the backend replies
    with status 200 and a JSON object whose [response], if it is there, is
    a string, the handler returns that string (the empty string when the
    field is absent) with the session id of the caller, provided the
    caller gave one or the installed pydantic accepts the explicit [None]
    that a caller without session id makes the handler pass to the
    response model. *)
Theorem query_voice_agent_success query reply (body : dict) :
  client_post (agent_request query) = Return reply →
  status_code reply = 200 →
  json reply = Return (VDict body) →
  (∀ v, body !! "response" = Some v → ∃ s, v = VStr s) →
  (is_Some (VoiceQuery.session_id query) ∨
   ∀ r, VoiceResponse_validate (VStr r) None = Return (VoiceResponse.new r None)) →
  ∃ r,
    default (VStr EmptyString) (body !! "response") = VStr r ∧
    result (query_voice_agent query)
    = Return (VoiceResponse.new r (VoiceQuery.session_id query)).
Proof.
  intros Hpost Hstatus Hjson Hfield Hsession.
  assert (∃ r, default (VStr EmptyString) (body !! "response") = VStr r) as [r Hr].
  { destruct (body !! "response") as [v|] eqn:Hv; [|by exists EmptyString].
    destruct (Hfield v eq_refl) as [s ->]. by exists s. }
  exists r. split; [done|].
  unfold VoiceGateway.query_voice_agent, try_except.
  rewrite query_voice_agent_try_run, Hpost, Hstatus, Hjson. cbv zeta.
  cbn [negb Z.eqb Pos.eqb get]. rewrite Hr.
  unfold VoiceGateway.VoiceResponse_init.
  destruct (VoiceQuery.session_id query) as [s|] eqn:Hs; [done|].
  destruct Hsession as [[? [=]]|Hnone]. by rewrite Hnone.
Qed.

(** C7.  When the outbound call of [query_voice_agent] or of
    [create_voice_call] fails in transport, whatever the error says, the
    handler fails with HTTP 503 and its fixed detail. *)
Theorem transport_failure_503 :
  (∀ query message,
     client_post (agent_request query) = Raise (RequestError message) →
     result (query_voice_agent query)
     = Raise (HTTPException 503 "Unable to reach backend service")) ∧
  (∀ call_config message,
     client_post (call_request call_config) = Raise (RequestError message) →
     result (create_voice_call call_config)
     = Raise (HTTPException 503 "Ultravox service unavailable")).
Proof.
  split.
  - intros query message Hpost.
    unfold VoiceGateway.query_voice_agent, try_except.
    by rewrite query_voice_agent_try_run, Hpost.
  - intros call_config message Hpost.
    unfold VoiceGateway.create_voice_call, try_except.
    by rewrite create_voice_call_try_run, Hpost.
Qed.

(** The one request [create_voice_call] sends, on every path. *)
Lemma create_voice_call_posts call_config :
  posts (trace (create_voice_call call_config)) = [call_request call_config].
Proof.
  unfold VoiceGateway.create_voice_call, try_except.
  rewrite create_voice_call_try_run. cbv zeta.
  destruct (client_post (call_request call_config)) as [response|e];
    [|by destruct e].
  destruct (not_in_200_201 (status_code response)); [done|].
  destruct (json response) as [call_response|e]; [|by destruct e].
  destruct (get call_response "call_id" VNone) as [?|e]; [|by destruct e].
  destruct (get call_response "join_url" VNone) as [?|e]; [done|by destruct e].
Qed.

(** A session-less caller whose explicit [None] the response model
    refuses: every reply with status 200 and a JSON object ends in HTTP
    500 with the message of the validation. *)
Lemma query_voice_agent_session_refused query reply (body : dict) r message :
  client_post (agent_request query) = Return reply →
  status_code reply = 200 →
  json reply = Return (VDict body) →
  default (VStr EmptyString) (body !! "response") = VStr r →
  VoiceQuery.session_id query = None →
  VoiceResponse_validate (VStr r) None = Raise (Exception message) →
  result (query_voice_agent query) = Raise (HTTPException 500 message).
Proof.
  intros Hpost Hstatus Hjson Hr Hsession Hrefused.
  unfold VoiceGateway.query_voice_agent, try_except.
  rewrite query_voice_agent_try_run, Hpost, Hstatus, Hjson. cbv zeta.
  cbn [negb Z.eqb Pos.eqb get]. rewrite Hr, Hsession.
  unfold VoiceGateway.VoiceResponse_init. by rewrite Hrefused.
Qed.

(** C10.  [create_voice_call] with an empty map and with no map are the
    same computation, and what each of them sends upstream is one request
    to the Ultravox endpoint whose payload is exactly the default map: the
    fixed prompt, the model ["fixie-ai/ultravox"] and the temperature
    0.7. *)
Theorem create_voice_call_empty_config :
  create_voice_call (Some ∅) = create_voice_call None ∧
  ∃ sent,
    posts (trace (create_voice_call (Some ∅))) = [sent] ∧
    posts (trace (create_voice_call None)) = [sent] ∧
    post_url sent = "https://api.fixie.ai/ultravox/calls" ∧
    post_json sent
    = VDict {[ "systemPrompt" := VStr "You are a helpful voice assistant powered by Strands Agent Team. Answer questions concisely and naturally.";
               "model" := VStr "fixie-ai/ultravox";
               "temperature" := VFloat (7 # 10) ]}.
Proof.
  assert (call_data (Some ∅) = call_data None) as Hdata.
  { unfold call_data. by rewrite !or_else_empty. }
  assert (call_data None = call_defaults) as Hnone.
  { unfold call_data, dict_update. simpl. apply (left_id_L ∅ (∪)). }
  assert (call_request (Some ∅) = call_request None) as Hrequest.
  { unfold VoiceGateway.call_request. by rewrite Hdata. }
  split.
  - unfold VoiceGateway.create_voice_call, VoiceGateway.create_voice_call_try.
    by rewrite Hrequest.
  - exists (call_request None). rewrite !create_voice_call_posts, Hrequest.
    split; [done|]. split; [done|]. split; [done|].
    cbn [post_json VoiceGateway.call_request]. by rewrite Hnone.
Qed.

End VoiceGatewayFacts.

(** *** The voice gateway on sample networks *)

(** [query_voice_agent_backend_error] on a backend that replies 404. *)
Lemma query_voice_agent_backend_error_witness :
  let reply := text_reply 404 "agent down" in
  let network := replying reply in
  (network (VoiceGateway.agent_request sample_backend_url sample_query) = Return reply ∧
   status_code reply ≠ 200) ∧
  result (VoiceGateway.query_voice_agent_try (H:=starlette) sample_backend_url
            network strict_validate sample_query)
    = Raise (HTTPException 404 "Error from backend agent") ∧
  logged ERROR (trace (VoiceGateway.query_voice_agent_try (H:=starlette)
                         sample_backend_url network strict_validate sample_query))
    = ["Backend error: agent down"] ∧
  result (VoiceGateway.query_voice_agent (H:=starlette) sample_backend_url
            network strict_validate sample_query)
    = result (VoiceGateway.query_voice_agent_except (H:=starlette)
                (HTTPException (status_code reply) "Error from backend agent")) ∧
  ∃ status detail,
    result (VoiceGateway.query_voice_agent (H:=starlette) sample_backend_url
              network strict_validate sample_query)
    = Raise (HTTPException status detail).
Proof.
  intros reply network. split; [split; [reflexivity|discriminate]|].
  apply (query_voice_agent_backend_error (H:=starlette) sample_backend_url
           network strict_validate sample_query reply).
  - reflexivity.
  - discriminate.
Defined.

(** C1, as stated, fails on a backend that replies 404 with the body
    [agent down]: the caller gets status 500, and a detail made of the
    status and the fixed message of the check, without the body. *)
Lemma query_voice_agent_status_counterexample :
  let reply := text_reply 404 "agent down" in
  let failure := result (VoiceGateway.query_voice_agent (H:=starlette) sample_backend_url
                           (replying reply) strict_validate sample_query) in
  failure = Raise (HTTPException 500 "404: Error from backend agent") ∧
  ¬ ∃ detail,
      failure = Raise (HTTPException (status_code reply) detail) ∧
      contains (text reply) detail = true.
Proof.
  intros reply failure.
  assert (failure = Raise (HTTPException 500 "404: Error from backend agent")) as Hfailure
    by (vm_compute; reflexivity).
  split; [exact Hfailure|].
  intros (detail & Heq & _). rewrite Hfailure in Heq. discriminate.
Qed.

(** [create_voice_call_status_check] on an upstream that creates the call
    (201) and on one that refuses it (429). *)
Lemma create_voice_call_status_check_witness :
  let created := json_reply 201 "{}"
                   (VDict {[ "call_id" := VStr "c-42";
                             "join_url" := VStr "wss://voice.example/c-42" ]}) in
  let refused := text_reply 429 "quota exceeded" in
  result (VoiceGateway.create_voice_call (H:=starlette) "secret" (replying created) None)
    = Return {[ "call_id" := VStr "c-42";
                "join_url" := VStr "wss://voice.example/c-42";
                "status" := VStr "created" ]} ∧
  result (VoiceGateway.create_voice_call_try (H:=starlette) "secret" (replying refused) None)
    = Raise (HTTPException 429 "Error creating call with Ultravox") ∧
  logged ERROR (trace (VoiceGateway.create_voice_call_try (H:=starlette) "secret"
                         (replying refused) None))
    = ["Ultravox error: quota exceeded"].
Proof.
  intros created refused. split.
  - refine (proj2 (proj1 (create_voice_call_status_check (H:=starlette) "secret"
                            (replying created) None created eq_refl)
                     (or_intror eq_refl)) _ eq_refl).
  - pose proof (proj2 (create_voice_call_status_check (H:=starlette) "secret"
                         (replying refused) None refused eq_refl)) as Hrefused.
    destruct Hrefused as (Hraise & Hlog & _ & _); [discriminate|discriminate|].
    split; [exact Hraise|exact Hlog].
Defined.

(** C2, as stated, fails on an upstream that replies 429 with the body
    [quota exceeded]: the caller gets status 500 and a detail without the
    body. *)
Lemma create_voice_call_status_counterexample :
  let reply := text_reply 429 "quota exceeded" in
  let failure := result (VoiceGateway.create_voice_call (H:=starlette) "secret"
                           (replying reply) None) in
  failure = Raise (HTTPException 500 "429: Error creating call with Ultravox") ∧
  ¬ ∃ detail,
      failure = Raise (HTTPException (status_code reply) detail) ∧
      contains (text reply) detail = true.
Proof.
  intros reply failure.
  assert (failure = Raise (HTTPException 500 "429: Error creating call with Ultravox"))
    as Hfailure by (vm_compute; reflexivity).
  split; [exact Hfailure|].
  intros (detail & Heq & _). rewrite Hfailure in Heq. discriminate.
Qed.

(** [query_voice_agent_success] on a backend that replies 200 with
    [{"response": "ok"}]. *)
Lemma query_voice_agent_success_witness :
  let body : dict := {[ "response" := VStr "ok" ]} in
  let reply := json_reply 200 ("{" ++ quoted "response" ++ ": " ++ quoted "ok" ++ "}") (VDict body) in
  result (VoiceGateway.query_voice_agent (H:=starlette) sample_backend_url
            (replying reply) strict_validate sample_query)
  = Return (VoiceGateway.VoiceResponse.new "ok" (Some "session-1")).
Proof.
  intros body reply.
  destruct (query_voice_agent_success (H:=starlette) sample_backend_url
              (replying reply) strict_validate sample_query reply body)
    as (r & Hr & Hresult).
  - reflexivity.
  - reflexivity.
  - reflexivity.
  - intros v Hv. exists "ok". vm_compute in Hv. congruence.
  - left. by exists "session-1".
  - vm_compute in Hr. injection Hr as <-. exact Hresult.
Defined.

(** C6, at a caller without session id.  [VoiceResponse] declares
    [session_id: str = None] and the handler passes the [None] of the
    query to it; a pydantic that validates an explicit [None] against the
    annotation [str], as pydantic 2 does, refuses it, the [except
    Exception] clause catches the validation error, and the reply 200 with
    [{"response": "ok"}] ends in HTTP 500 instead of the response with the
    session id echoed. *)
Theorem query_voice_agent_without_session_id :
  let query := VoiceGateway.VoiceQuery.new "what is on my calendar" None in
  let body : dict := {[ "response" := VStr "ok" ]} in
  let reply := json_reply 200 ("{" ++ quoted "response" ++ ": " ++ quoted "ok" ++ "}")
                 (VDict body) in
  let handled := VoiceGateway.query_voice_agent (H:=starlette) sample_backend_url
                   (replying reply) strict_validate query in
  result handled = Raise (HTTPException 500 "1 validation error for VoiceResponse") ∧
  result handled ≠ Return (VoiceGateway.VoiceResponse.new "ok" None) ∧
  posts (trace handled) = [VoiceGateway.agent_request sample_backend_url query] ∧
  logged ERROR (trace handled)
    = ["Error processing voice query: 1 validation error for VoiceResponse"].
Proof.
  intros query body reply handled.
  assert (result handled
          = Raise (HTTPException 500 "1 validation error for VoiceResponse")) as Hresult.
  { apply (query_voice_agent_session_refused (H:=starlette) sample_backend_url
             (replying reply) strict_validate query reply body "ok"
             "1 validation error for VoiceResponse"); reflexivity. }
  split; [exact Hresult|]. split; [by rewrite Hresult|].
  split; reflexivity.
Qed.

(** [transport_failure_503] on a network that refuses every connection. *)
Lemma transport_failure_503_witness :
  result (VoiceGateway.query_voice_agent (H:=starlette) sample_backend_url
            (unreachable "All connection attempts failed") strict_validate sample_query)
  = Raise (HTTPException 503 "Unable to reach backend service") ∧
  result (VoiceGateway.create_voice_call (H:=starlette) "secret"
            (unreachable "All connection attempts failed") None)
  = Raise (HTTPException 503 "Ultravox service unavailable").
Proof.
  split.
  - apply (proj1 (transport_failure_503 (H:=starlette) "secret" sample_backend_url
                    (unreachable "All connection attempts failed") strict_validate)
             sample_query "All connection attempts failed").
    reflexivity.
  - apply (proj2 (transport_failure_503 (H:=starlette) "secret" sample_backend_url
                    (unreachable "All connection attempts failed") strict_validate)
             None "All connection attempts failed").
    reflexivity.
Defined.

(** ** More on splitting: the fields and their number *)

Lemma count_app c (s1 s2 : string) :
  count c (s1 ++ s2) = (count c s1 + count c s2)%nat.
Proof.
  induction s1 as [|c1 s1 IH]; [done|].
  change (count c (String c1 (s1 +:+ s2))
          = (count c (String c1 s1) + count c s2)%nat).
  simpl. rewrite IH. lia.
Qed.

Lemma endswith_app_sep sep (s : string) :
  endswith sep (s ++ String sep EmptyString) = true.
Proof.
  induction s as [|c rest IH]; [apply Ascii.eqb_refl|].
  change (endswith sep (String c (rest +:+ String sep EmptyString)) = true).
  destruct rest as [|c' rest']; [apply Ascii.eqb_refl|exact IH].
Qed.

(** No field of a split holds the separator. *)
Lemma split_fields_count sep s :
  Forall (λ field, count sep field = 0%nat) (split sep s).
Proof.
  induction s as [|c rest IH]; simpl; [by repeat constructor|].
  destruct (Ascii.eqb c sep) eqn:Hc; [by constructor|].
  destruct (split sep rest) as [|field fields]; inversion IH; subst.
  - repeat constructor. simpl. by rewrite Hc.
  - constructor; [|done]. simpl. rewrite Hc. lia.
Qed.

(** A split has one field more than the string has separators. *)
Lemma length_split sep s : length (split sep s) = S (count sep s).
Proof.
  induction s as [|c rest IH]; simpl; [done|].
  destruct (Ascii.eqb c sep); simpl; [by rewrite IH|].
  destruct (split sep rest) as [|field fields] eqn:Hsplit; simpl in *; lia.
Qed.

(** ** More on the text gateway *)

Section TextGatewayEffects.
Import TextGateway.
Context `{Libraries}.
Variable coordinator_agent_run : string → outcome string.

#[local] Abbreviation process_query := (process_query coordinator_agent_run).
#[local] Abbreviation generate := (generate coordinator_agent_run).
#[local] Abbreviation process_query_streaming :=
  (process_query_streaming coordinator_agent_run).

(** The chunks of a completion, when the generator is run. *)
Lemma generate_yields request completion :
  coordinator_agent_run (query request) = Return completion →
  yields (trace (generate request))
  = map (λ field, field ++ " ") (split " " completion).
Proof.
  intros Hrun. rewrite generate_run, Hrun. cbn [trace].
  change (yields (map (λ chunk, Yield (chunk ++ " ")) (split " " completion))
          = map (λ field, field ++ " ") (split " " completion)).
  by rewrite <- (map_map (λ chunk, chunk ++ " ") Yield), yields_map_Yield.
Qed.

(** Every chunk of the stream is a word without a space followed by one
    space: it ends with a space and holds no other. *)
Theorem generate_chunk_shape request completion :
  coordinator_agent_run (query request) = Return completion →
  Forall (λ chunk, endswith " " chunk = true ∧ count " " chunk = 1%nat)
         (yields (trace (generate request))).
Proof.
  intros Hrun. rewrite (generate_yields _ _ Hrun).
  apply Forall_fmap. eapply Forall_impl; [apply split_fields_count|].
  intros field Hfield. simpl. split; [apply endswith_app_sep|].
  by rewrite count_app, Hfield.
Qed.

(** The stream has one chunk more than the completion has spaces: an
    empty completion still gives one chunk, a single space. *)
Theorem generate_chunk_count request completion :
  coordinator_agent_run (query request) = Return completion →
  length (yields (trace (generate request))) = S (count " " completion) ∧
  (completion = EmptyString → yields (trace (generate request)) = [" "]).
Proof.
  intros Hrun. rewrite (generate_yields _ _ Hrun). split.
  - by rewrite length_map, length_split.
  - by intros ->.
Qed.


(** [process_query_streaming] cannot fail: for every agent and request it
    returns the streaming response around the generator, having logged one
    line and no error, invoked no agent and yielded nothing.  Its [except]
    clause never runs. *)
Theorem process_query_streaming_total request :
  result (process_query_streaming request)
    = Return {| body_iterator := generate request;
                media_type := "text/event-stream" |} ∧
  agent_runs (trace (process_query_streaming request)) = [] ∧
  yields (trace (process_query_streaming request)) = [] ∧
  logged ERROR (trace (process_query_streaming request)) = [] ∧
  logged INFO (trace (process_query_streaming request))
    = ["Processing streaming query: " ++ query request].
Proof. by rewrite process_query_streaming_run. Qed.

(** [process_query] invokes the agent once, on the query, sends and
    yields nothing, and ends in one of two ways: it returns, with no error
    logged, or it fails with HTTP 500, with one error line that carries the
    detail given to the caller. *)
Theorem process_query_effects request :
  agent_runs (trace (process_query request)) = [query request] ∧
  posts (trace (process_query request)) = [] ∧
  yields (trace (process_query request)) = [] ∧
  ((∃ envelope, result (process_query request) = Return envelope ∧
                logged ERROR (trace (process_query request)) = []) ∨
   (∃ detail, result (process_query request) = Raise (HTTPException 500 detail) ∧
              logged ERROR (trace (process_query request))
              = ["Error processing query: " ++ detail])).
Proof.
  rewrite process_query_run.
  destruct (coordinator_agent_run (query request)) as [completion|e].
  - repeat split; try done. left. by eexists.
  - repeat split; try done. right. by eexists.
Qed.

End TextGatewayEffects.

(** [generate_chunk_shape] on a completion of three words. *)
Lemma generate_chunk_shape_witness :
  let request := TextGateway.Build_AgentRequest "plan the launch" ∅ in
  Forall (λ chunk, endswith " " chunk = true ∧ count " " chunk = 1%nat)
         (yields (trace (TextGateway.generate
                           (constant_agent "Draft, review, ship.") request))).
Proof.
  intros request.
  apply (generate_chunk_shape (constant_agent "Draft, review, ship.")
           request "Draft, review, ship.").
  reflexivity.
Defined.

(** [generate_chunk_count] on a completion with two spaces at its end. *)
Lemma generate_chunk_count_witness :
  let request := TextGateway.Build_AgentRequest "status?" ∅ in
  length (yields (trace (TextGateway.generate (constant_agent "ok  ") request)))
  = 3%nat.
Proof.
  intros request.
  apply (proj1 (generate_chunk_count (constant_agent "ok  ") request "ok  " eq_refl)).
Defined.


(** ** More on the voice gateway *)

Section VoiceGatewayEffects.
Import VoiceGateway.
Context `{Libraries}.
Variable ULTRAVOX_API_KEY : string.
Variable STRANDS_BACKEND_URL : string.
Variable client_post : http_request → outcome http_response.
Variable VoiceResponse_validate : pyvalue → option string → outcome VoiceResponse.t.

#[local] Abbreviation agent_request := (agent_request STRANDS_BACKEND_URL).
#[local] Abbreviation query_voice_agent_try :=
  (query_voice_agent_try STRANDS_BACKEND_URL client_post VoiceResponse_validate).
#[local] Abbreviation query_voice_agent :=
  (query_voice_agent STRANDS_BACKEND_URL client_post VoiceResponse_validate).
#[local] Abbreviation VoiceResponse_init := (VoiceResponse_init VoiceResponse_validate).
#[local] Abbreviation call_request := (call_request ULTRAVOX_API_KEY).
#[local] Abbreviation create_voice_call_try :=
  (create_voice_call_try ULTRAVOX_API_KEY client_post).
#[local] Abbreviation create_voice_call :=
  (create_voice_call ULTRAVOX_API_KEY client_post).

(** A handler built with [try_except] fails only as its [except] clauses
    fail. *)
Lemma try_except_Raise {A : Type} (body : M A) (handler : exn → M A) e :
  result (try_except body handler) = Raise e →
  ∃ e0, result body = Raise e0 ∧ result (handler e0) = Raise e.
Proof.
  unfold try_except. destruct (result body) as [a|e0] eqn:Hbody.
  - rewrite Hbody. discriminate.
  - intros Hhandler. by exists e0.
Qed.

(** [query_voice_agent] on a reply with status 200 and a JSON object. *)
Lemma query_voice_agent_decoded query reply (body : dict) :
  client_post (agent_request query) = Return reply →
  status_code reply = 200 →
  json reply = Return (VDict body) →
  result (query_voice_agent_try query)
  = VoiceResponse_init (default (VStr EmptyString) (body !! "response"))
      (VoiceQuery.session_id query).
Proof.
  intros Hpost Hstatus Hjson.
  by rewrite query_voice_agent_try_run, Hpost, Hstatus, Hjson.
Qed.

(** [query_voice_agent] sends one request on every path, to the [/agent]
    endpoint of the backend, with the transcribed text as its only field,
    no headers and a timeout of 30: the session id stays in the gateway. *)
Theorem query_voice_agent_request query :
  posts (trace (query_voice_agent query))
  = [ {| post_url := STRANDS_BACKEND_URL ++ "/agent";
         post_json := VDict {[ "query" := VStr (VoiceQuery.transcribed_text query) ]};
         post_headers := None;
         post_timeout := 30 |} ].
Proof.
  unfold VoiceGateway.query_voice_agent, try_except.
  rewrite query_voice_agent_try_run. cbv zeta.
  destruct (client_post (agent_request query)) as [response|e]; [|by destruct e].
  destruct (negb (status_code response =? 200)); [done|].
  destruct (json response) as [backend_response|e]; [|by destruct e].
  destruct (get backend_response "response" (VStr EmptyString)) as [field|e];
    [|by destruct e].
  cbn [result trace].
  destruct (VoiceResponse_init field (VoiceQuery.session_id query)) as [?|e];
    [done|by destruct e].
Qed.

(** The two handlers fail in two ways only: with HTTP 503 and their fixed
    detail, or with HTTP 500.  No other status and no other exception
    leaves them. *)
Theorem voice_gateway_failures :
  (∀ query e,
     result (query_voice_agent query) = Raise e →
     e = HTTPException 503 "Unable to reach backend service" ∨
     ∃ detail, e = HTTPException 500 detail) ∧
  (∀ call_config e,
     result (create_voice_call call_config) = Raise e →
     e = HTTPException 503 "Ultravox service unavailable" ∨
     ∃ detail, e = HTTPException 500 detail).
Proof.
  split.
  - intros query e Hfail.
    apply try_except_Raise in Hfail as (e0 & _ & Hexcept).
    destruct e0; simpl in Hexcept; injection Hexcept as <-; eauto.
  - intros call_config e Hfail.
    apply try_except_Raise in Hfail as (e0 & _ & Hexcept).
    destruct e0; simpl in Hexcept; injection Hexcept as <-; eauto.
Qed.

(** A reply with status 200 that cannot be unwrapped is an HTTP 500: with
    the message of the decoder when the body is not JSON, with the message
    of the [AttributeError] when the JSON is not an object. *)
Theorem query_voice_agent_malformed_reply query reply :
  client_post (agent_request query) = Return reply →
  status_code reply = 200 →
  (∀ message,
     json reply = Raise (Exception message) →
     result (query_voice_agent query) = Raise (HTTPException 500 message)) ∧
  (∀ v,
     json reply = Return v →
     (∀ d, v ≠ VDict d) →
     result (query_voice_agent query)
     = Raise (HTTPException 500
                ("'" ++ type_name v ++ "' object has no attribute 'get'"))).
Proof.
  intros Hpost Hstatus.
  unfold VoiceGateway.query_voice_agent, try_except.
  rewrite query_voice_agent_try_run, Hpost, Hstatus. cbv zeta.
  cbn [negb Z.eqb Pos.eqb]. split.
  - by intros message ->.
  - intros v -> Hv. destruct v; try done. by destruct (Hv d).
Qed.

(** What [create_voice_call] returns has the three keys [call_id],
    [join_url] and [status] and no other: the status is ["created"], a
    field the upstream left out is [None], and whatever else the upstream
    sent is dropped. *)
Theorem create_voice_call_result_shape call_config created :
  result (create_voice_call call_config) = Return created →
  dom created = {[ "call_id"; "join_url"; "status" ]} ∧
  created !! "status" = Some (VStr "created") ∧
  ∃ reply body,
    client_post (call_request call_config) = Return reply ∧
    json reply = Return (VDict body) ∧
    created !! "call_id" = Some (default VNone (body !! "call_id")) ∧
    created !! "join_url" = Some (default VNone (body !! "join_url")).
Proof.
  unfold VoiceGateway.create_voice_call, try_except.
  rewrite create_voice_call_try_run. cbv zeta.
  destruct (client_post (call_request call_config)) as [reply|e] eqn:Hpost;
    [|by destruct e].
  destruct (not_in_200_201 (status_code reply)); [done|].
  destruct (json reply) as [call_response|e] eqn:Hjson; [|by destruct e].
  destruct call_response as [| | | | | |body]; try done.
  cbn [get result]. intros [= <-]. split; [|split].
  - rewrite !dom_insert_L, dom_singleton_L. set_solver.
  - done.
  - by exists reply, body.
Qed.

(** The caller of [create_voice_call] decides the payload and nothing
    else: on every path one request is sent, with the bearer token and the
    content type as its two headers and a timeout of 30, whatever the
    configuration. *)
Theorem create_voice_call_headers call_config :
  ∃ sent,
    posts (trace (create_voice_call call_config)) = [sent] ∧
    post_headers sent
      = Some {[ "Authorization" := "Bearer " ++ ULTRAVOX_API_KEY;
                "Content-Type" := "application/json" ]} ∧
    post_timeout sent = 30%Q ∧
    post_url sent = post_url (call_request None).
Proof.
  exists (call_request call_config). split; [|done].
  unfold VoiceGateway.create_voice_call, try_except.
  rewrite create_voice_call_try_run. cbv zeta.
  destruct (client_post (call_request call_config)) as [response|e];
    [|by destruct e].
  destruct (not_in_200_201 (status_code response)); [done|].
  destruct (json response) as [call_response|e]; [|by destruct e].
  destruct (get call_response "call_id" VNone) as [?|e]; [|by destruct e].
  destruct (get call_response "join_url" VNone) as [?|e]; [done|by destruct e].
Qed.

(** The payload always has the three default keys: the caller can give
    them another value and add keys, not remove one. *)
Theorem call_data_keys call_config :
  dom (call_data call_config)
  = dom (default ∅ call_config) ∪ {[ "systemPrompt"; "model"; "temperature" ]}.
Proof.
  unfold call_data, dict_update. rewrite or_else_empty, dom_union_L.
  unfold call_defaults. rewrite !dom_insert_L, dom_singleton_L.
  set_solver.
Qed.

(** Merging is idempotent: a payload given back as the configuration is
    sent as it is. *)
Theorem call_data_idempotent call_config :
  call_data (Some (call_data call_config)) = call_data call_config.
Proof.
  unfold call_data, dict_update. rewrite !or_else_empty. simpl.
  by rewrite <- (assoc_L (∪)), (idemp_L (∪)).
Qed.

End VoiceGatewayEffects.

(** [voice_gateway_failures] on a backend that replies 404 and on an
    unreachable Ultravox. *)
Lemma voice_gateway_failures_witness :
  let on_404 := VoiceGateway.query_voice_agent (H:=starlette) sample_backend_url
                  (replying (text_reply 404 "agent down")) strict_validate sample_query in
  let on_down := VoiceGateway.create_voice_call (H:=starlette) "secret"
                   (unreachable "All connection attempts failed") None in
  (result on_404 = Raise (HTTPException 500 "404: Error from backend agent") ∧
   (HTTPException 500 "404: Error from backend agent"
      = HTTPException 503 "Unable to reach backend service" ∨
    ∃ detail, HTTPException 500 "404: Error from backend agent"
              = HTTPException 500 detail)) ∧
  (result on_down = Raise (HTTPException 503 "Ultravox service unavailable") ∧
   (HTTPException 503 "Ultravox service unavailable"
      = HTTPException 503 "Ultravox service unavailable" ∨
    ∃ detail, HTTPException 503 "Ultravox service unavailable"
              = HTTPException 500 detail)).
Proof.
  intros on_404 on_down. split; (split; [reflexivity|]).
  - apply (proj1 (voice_gateway_failures (H:=starlette) "secret" sample_backend_url
                    (replying (text_reply 404 "agent down")) strict_validate)
             sample_query).
    reflexivity.
  - apply (proj2 (voice_gateway_failures (H:=starlette) "secret" sample_backend_url
                    (unreachable "All connection attempts failed") strict_validate)
             None).
    reflexivity.
Defined.

(** [query_voice_agent_malformed_reply] on a backend that replies 200 with
    a page that is not JSON, and on one that replies 200 with a JSON
    list. *)
Lemma query_voice_agent_malformed_reply_witness :
  result (VoiceGateway.query_voice_agent (H:=starlette) sample_backend_url
            (replying (text_reply 200 "<html>ok</html>")) strict_validate sample_query)
    = Raise (HTTPException 500 "Expecting value: line 1 column 1 (char 0)") ∧
  result (VoiceGateway.query_voice_agent (H:=starlette) sample_backend_url
            (replying (json_reply 200 "[]" (VList []))) strict_validate sample_query)
    = Raise (HTTPException 500 "'list' object has no attribute 'get'").
Proof.
  split.
  - apply (proj1 (query_voice_agent_malformed_reply (H:=starlette) sample_backend_url
                    (replying (text_reply 200 "<html>ok</html>")) strict_validate
                    sample_query (text_reply 200 "<html>ok</html>") eq_refl eq_refl)).
    reflexivity.
  - apply (proj2 (query_voice_agent_malformed_reply (H:=starlette) sample_backend_url
                    (replying (json_reply 200 "[]" (VList []))) strict_validate
                    sample_query (json_reply 200 "[]" (VList [])) eq_refl eq_refl)
             (VList []) eq_refl).
    discriminate.
Defined.

(** [create_voice_call_result_shape] on an upstream that creates the call
    and sends a join URL, no call id and a field of its own. *)
Lemma create_voice_call_result_shape_witness :
  let body : dict := {[ "join_url" := VStr "wss://voice.example/c-42";
                        "billing" := VStr "per-minute" ]} in
  let network := replying (json_reply 201 "{}" (VDict body)) in
  let created : dict := {[ "call_id" := VNone;
                           "join_url" := VStr "wss://voice.example/c-42";
                           "status" := VStr "created" ]} in
  result (VoiceGateway.create_voice_call (H:=starlette) "secret" network None)
    = Return created ∧
  dom created = {[ "call_id"; "join_url"; "status" ]} ∧
  created !! "status" = Some (VStr "created").
Proof.
  intros body network created.
  assert (result (VoiceGateway.create_voice_call (H:=starlette) "secret" network None)
          = Return created) as Hcreated by reflexivity.
  split; [exact Hcreated|].
  destruct (create_voice_call_result_shape (H:=starlette) "secret" network None
              created Hcreated) as (Hdom & Hstatus & _).
  split; [exact Hdom|exact Hstatus].
Defined.

(** ** The two gateways together *)

Section Deployment.
Context `{Libraries}.
Variable coordinator_agent_run : string → outcome string.
Variable STRANDS_BACKEND_URL : string.
Variable client_post : http_request → outcome http_response.
Variable VoiceResponse_validate
  : pyvalue → option string → outcome VoiceGateway.VoiceResponse.t.

(** When the backend is the text gateway, a voice query is answered by the
    agent.  The text gateway reads the object the voice gateway sends as
    the request with that query and the default, empty context; if
    [process_query] returns an envelope for it and the reply that comes
    back is status 200 with the two fields of that envelope, then the agent
    was run on the transcribed text, and [query_voice_agent] returns its
    completion with the session id of a caller that gave one.  For a
    caller without session id the response model decides: the handler
    returns what the validation of the completion with an explicit [None]
    returns, and fails with HTTP 500 and the message of the validation when
    it is refused. *)
Theorem voice_query_answered_by_agent query reply envelope :
  result (TextGateway.process_query coordinator_agent_run
            {| TextGateway.query := VoiceGateway.VoiceQuery.transcribed_text query;
               TextGateway.context := ∅ |}) = Return envelope →
  client_post (VoiceGateway.agent_request STRANDS_BACKEND_URL query) = Return reply →
  status_code reply = 200 →
  json reply = Return (VDict {[ "response" := VStr (TextGateway.response envelope);
                                "status" := VStr (TextGateway.status envelope) ]}) →
  ∃ completion,
    coordinator_agent_run (VoiceGateway.VoiceQuery.transcribed_text query)
      = Return completion ∧
    match VoiceGateway.VoiceQuery.session_id query with
    | Some session =>
        result (VoiceGateway.query_voice_agent STRANDS_BACKEND_URL client_post
                  VoiceResponse_validate query)
        = Return (VoiceGateway.VoiceResponse.new completion (Some session))
    | None =>
        (∀ validated,
           VoiceResponse_validate (VStr completion) None = Return validated →
           result (VoiceGateway.query_voice_agent STRANDS_BACKEND_URL client_post
                     VoiceResponse_validate query)
           = Return validated) ∧
        (∀ message,
           VoiceResponse_validate (VStr completion) None = Raise (Exception message) →
           result (VoiceGateway.query_voice_agent STRANDS_BACKEND_URL client_post
                     VoiceResponse_validate query)
           = Raise (HTTPException 500 message))
    end.
Proof.
  intros Henvelope Hpost Hstatus Hjson.
  rewrite process_query_run in Henvelope. cbn [TextGateway.query] in Henvelope.
  destruct (coordinator_agent_run (VoiceGateway.VoiceQuery.transcribed_text query))
    as [completion|e]; [|done].
  injection Henvelope as <-. exists completion. split; [done|].
  pose proof (query_voice_agent_decoded STRANDS_BACKEND_URL client_post
                VoiceResponse_validate _ _ _ Hpost Hstatus Hjson) as Htry.
  rewrite lookup_insert_eq in Htry.
  cbn [default TextGateway.response] in Htry.
  unfold VoiceGateway.VoiceResponse_init in Htry.
  unfold VoiceGateway.query_voice_agent, try_except.
  destruct (VoiceGateway.VoiceQuery.session_id query) as [session|];
    cbv beta iota delta [id] in Htry.
  - rewrite Htry. exact Htry.
  - split.
    + intros validated Hvalidated. rewrite Hvalidated in Htry.
      rewrite Htry. exact Htry.
    + intros message Hrefused. rewrite Hrefused in Htry.
      by rewrite Htry.
Qed.

End Deployment.

(** [voice_query_answered_by_agent] on a backend that is the text
    gateway, for a caller with a session id and for one without, whose
    [None] the response model refuses. *)
Lemma voice_query_answered_by_agent_witness :
  let agent := constant_agent "You have two meetings today." in
  let anonymous := VoiceGateway.VoiceQuery.new "what is on my calendar" None in
  result (VoiceGateway.query_voice_agent (H:=starlette) sample_backend_url
            (text_gateway_backend agent) strict_validate sample_query)
    = Return (VoiceGateway.VoiceResponse.new "You have two meetings today."
                (Some "session-1")) ∧
  result (VoiceGateway.query_voice_agent (H:=starlette) sample_backend_url
            (text_gateway_backend agent) strict_validate anonymous)
    = Raise (HTTPException 500 "1 validation error for VoiceResponse").
Proof.
  intros agent anonymous. split.
  - destruct (voice_query_answered_by_agent (H:=starlette) agent sample_backend_url
                (text_gateway_backend agent) strict_validate sample_query
                (json_reply 200 "{...}"
                   (VDict {[ "response" := VStr "You have two meetings today.";
                             "status" := VStr "success" ]}))
                (TextGateway.Build_AgentResponse "You have two meetings today." "success")
                eq_refl eq_refl eq_refl eq_refl)
      as (completion & Hrun & Hresult).
    injection Hrun as <-. exact Hresult.
  - destruct (voice_query_answered_by_agent (H:=starlette) agent sample_backend_url
                (text_gateway_backend agent) strict_validate anonymous
                (json_reply 200 "{...}"
                   (VDict {[ "response" := VStr "You have two meetings today.";
                             "status" := VStr "success" ]}))
                (TextGateway.Build_AgentResponse "You have two meetings today." "success")
                eq_refl eq_refl eq_refl eq_refl)
      as (completion & Hrun & Hresult).
    injection Hrun as <-.
    apply (proj2 Hresult "1 validation error for VoiceResponse"). reflexivity.
Defined.

(** ** Start-up *)

(** The text gateway starts with a key that is set and not empty, and
    with no other: a variable that is missing or empty is the [ValueError]
    of the module. *)
Theorem openai_api_key_required env :
  (∀ key, TextStartup.openai_api_key env = Return key ↔
          ∃ k, key = Some k ∧ k ≠ EmptyString ∧ env !! "OPENAI_API_KEY" = Some k) ∧
  (truthy (env !! "OPENAI_API_KEY") = false ↔
   TextStartup.openai_api_key env
   = Raise (Exception "OPENAI_API_KEY environment variable is not set")).
Proof.
  unfold TextStartup.openai_api_key, getenv. split.
  - intros key. destruct (env !! "OPENAI_API_KEY") as [[|c k]|]; simpl.
    + split; [done|]. by intros (k & _ & Hk & [= <-]).
    + split.
      * intros [= <-]. by eexists.
      * by intros (k' & -> & _ & [= <-]).
    + split; [done|]. by intros (k & _ & _ & [=]).
  - by destruct (env !! "OPENAI_API_KEY") as [[|c k]|].
Qed.

Section VoiceStartupFacts.
Import VoiceStartup.
Variable int : string → outcome Z.

(** What a start-up that succeeds has read. *)
Lemma load_Return env globals :
  load int env = Return globals →
  ∃ c key port,
    env !! "ULTRAVOX_API_KEY" = Some (String c key) ∧
    match env !! "VOICE_PORT" with Some s => int s | None => Return 8003 end
      = Return port ∧
    globals = {| ULTRAVOX_API_KEY := Some (String c key);
                 STRANDS_BACKEND_URL :=
                   default "http://10.0.0.3:8000" (env !! "STRANDS_BACKEND_URL");
                 VOICE_PORT := port |}.
Proof.
  unfold load, getenv. intros Hload.
  destruct (match env !! "VOICE_PORT" with Some s => int s | None => Return 8003 end)
    as [port|e] eqn:Hport; [|done].
  destruct (env !! "ULTRAVOX_API_KEY") as [[|c k]|]; simpl in Hload; try done.
  injection Hload as <-. by exists c, k, port.
Qed.

(** The voice gateway starts only with a key that is set and not empty,
    which it keeps; the backend address is the variable when it is set,
    empty or not, and the fixed private address otherwise; the port is
    8003 when the variable is not set. *)
Theorem load_requires_key env globals :
  load int env = Return globals →
  (∃ key, env !! "ULTRAVOX_API_KEY" = Some key ∧ key ≠ EmptyString ∧
          ULTRAVOX_API_KEY globals = Some key) ∧
  STRANDS_BACKEND_URL globals
    = default "http://10.0.0.3:8000" (env !! "STRANDS_BACKEND_URL") ∧
  (env !! "VOICE_PORT" = None → VOICE_PORT globals = 8003).
Proof.
  intros (c & key & port & Hkey & Hport & ->)%load_Return. cbn.
  split; [by eexists|]. split; [done|].
  intros Hnone. rewrite Hnone in Hport. by injection Hport as <-.
Qed.

(** The port is parsed before the key is checked: a port that does not
    parse stops the start-up with the exception of [int], whether the key
    is set or not. *)
Theorem load_port_first env s e :
  env !! "VOICE_PORT" = Some s →
  int s = Raise e →
  load int env = Raise e.
Proof.
  unfold load, getenv. intros -> ->. done.
Qed.

(** With the port parsed or left to its default, a key that is missing or
    empty stops the start-up with the [ValueError] of the module. *)
Theorem load_missing_key env :
  truthy (env !! "ULTRAVOX_API_KEY") = false →
  (∀ s, env !! "VOICE_PORT" = Some s → ∃ port, int s = Return port) →
  load int env
  = Raise (Exception "ULTRAVOX_API_KEY environment variable is not set").
Proof.
  unfold load, getenv. intros Hkey Hport. rewrite Hkey.
  destruct (env !! "VOICE_PORT") as [s|]; [|done].
  destruct (Hport s eq_refl) as [port ->]. done.
Qed.

(** On a gateway that started, [/info] always reports
    [ultravox_enabled] as true, with the address and the port that were
    loaded. *)
Theorem info_after_load env globals :
  load int env = Return globals →
  info globals
  = {[ "service" := VStr "voice-agent-gateway";
       "backend_url" := VStr (default "http://10.0.0.3:8000"
                                (env !! "STRANDS_BACKEND_URL"));
       "voice_port" := VInt (VOICE_PORT globals);
       "ultravox_enabled" := VBool true ]}.
Proof.
  by intros (c & key & port & _ & _ & ->)%load_Return.
Qed.

End VoiceStartupFacts.

(** [load_requires_key] on an environment with the key alone. *)
Lemma load_requires_key_witness :
  let globals := VoiceStartup.Build_Settings (Some "secret") "http://10.0.0.3:8000" 8003 in
  VoiceStartup.load decimal_int sample_environ = Return globals ∧
  (∃ key, sample_environ !! "ULTRAVOX_API_KEY" = Some key ∧ key ≠ EmptyString ∧
          VoiceStartup.ULTRAVOX_API_KEY globals = Some key) ∧
  VoiceStartup.STRANDS_BACKEND_URL globals
    = default "http://10.0.0.3:8000" (sample_environ !! "STRANDS_BACKEND_URL") ∧
  (sample_environ !! "VOICE_PORT" = None → VoiceStartup.VOICE_PORT globals = 8003).
Proof.
  intros globals. split; [reflexivity|].
  apply (load_requires_key decimal_int sample_environ globals). reflexivity.
Defined.

(** [info_after_load] on the same environment. *)
Lemma info_after_load_witness :
  let globals := VoiceStartup.Build_Settings (Some "secret") "http://10.0.0.3:8000" 8003 in
  VoiceStartup.load decimal_int sample_environ = Return globals ∧
  VoiceStartup.info globals
  = {[ "service" := VStr "voice-agent-gateway";
       "backend_url" := VStr (default "http://10.0.0.3:8000"
                                (sample_environ !! "STRANDS_BACKEND_URL"));
       "voice_port" := VInt (VoiceStartup.VOICE_PORT globals);
       "ultravox_enabled" := VBool true ]}.
Proof.
  intros globals. split; [reflexivity|].
  apply (info_after_load decimal_int sample_environ globals). reflexivity.
Defined.

(** [load_port_first] on a port that is not a number. *)
Lemma load_port_first_witness :
  VoiceStartup.load decimal_int sample_environ_bad_port
  = Raise (Exception "invalid literal for int() with base 10").
Proof.
  apply (load_port_first decimal_int sample_environ_bad_port "eighty"
           (Exception "invalid literal for int() with base 10"));
    reflexivity.
Defined.

(** [load_missing_key] on the empty environment. *)
Lemma load_missing_key_witness :
  VoiceStartup.load decimal_int ∅
  = Raise (Exception "ULTRAVOX_API_KEY environment variable is not set").
Proof.
  apply (load_missing_key decimal_int ∅); [reflexivity|].
  intros s Hs. by rewrite lookup_empty in Hs.
Defined.
